(** * StudyMate: the session state managed by the [App] component

    A shallow embedding of the state held by [App] (its [useState] cells and
    the cells exposed by the [usePdfProcessor] hook) and of its event
    handlers.  A handler that awaits a promise is split where it awaits: the
    part that runs when the handler is called, and the continuation that runs
    when the promise settles. *)

From Stdlib Require Import List Arith NArith String Ascii Bool Lia.
Import ListNotations.

Set Implicit Arguments.

(** ** JavaScript strings *)

(** A string is its sequence of UTF-16 code units. *)
Definition jsstring := list N.

Definition lit (s : string) : jsstring :=
  map N_of_ascii (list_ascii_of_string s).

(** WhiteSpace and LineTerminator of ECMAScript, as code units. *)
Definition isWhiteSpace (c : N) : bool :=
  ((9 <=? c) && (c <=? 13)            (* TAB LF VT FF CR *)
   || (c =? 32)                       (* SP *)
   || (c =? 160)                      (* NBSP *)
   || (c =? 5760)                     (* U+1680 *)
   || ((8192 <=? c) && (c <=? 8202))  (* U+2000 .. U+200A *)
   || (c =? 8232) || (c =? 8233)      (* LS PS *)
   || (c =? 8239)                     (* U+202F *)
   || (c =? 8287)                     (* U+205F *)
   || (c =? 12288)                    (* U+3000 *)
   || (c =? 65279))%N.                (* U+FEFF *)

Fixpoint trimStart (s : jsstring) : jsstring :=
  match s with
  | [] => []
  | c :: rest => if isWhiteSpace c then trimStart rest else s
  end.

Definition trimEnd (s : jsstring) : jsstring := rev (trimStart (rev s)).

(** [String.prototype.trim] *)
Definition trim (s : jsstring) : jsstring := trimEnd (trimStart s).

(** [String.prototype.startsWith], from position 0. *)
Fixpoint startsWith (s searchString : jsstring) : bool :=
  match searchString, s with
  | [], _ => true
  | _ :: _, [] => false
  | p :: ps, c :: cs => (c =? p)%N && startsWith cs ps
  end.

(** ** Truthiness *)

(** What [!x], [x || y] and [x && y] test. *)
Class Truthy (A : Type) := truthy : A -> bool.

#[export] Instance Truthy_bool : Truthy bool := fun b => b.

(** The empty string is the only falsy string. *)
#[export] Instance Truthy_string : Truthy jsstring :=
  fun s => match s with [] => false | _ :: _ => true end.

(** [T | null] and [T | undefined] *)
#[export] Instance Truthy_nullable {A} `{Truthy A} : Truthy (option A) :=
  fun o => match o with None => false | Some x => truthy x end.

(** [a || b] where [a] may be null and [b] is not. *)
Definition or_else {A} `{Truthy A} (a : option A) (b : A) : A :=
  match a with
  | Some x => if truthy x then x else b
  | None => b
  end.

(** ** types.ts *)

(** The browser's [File], as far as the component reads it. *)
Module File.
Record t := { name : jsstring; type : jsstring }.
End File.

Module PdfDocument.
Record t := { file : File.t; text : jsstring }.
End PdfDocument.

Module ImagePayload.
Record t := { data : jsstring; mimeType : jsstring; name : jsstring }.
End ImagePayload.

Module QuizQuestion.
Record t := { question : jsstring; options : list jsstring; answer : jsstring }.
End QuizQuestion.

Inductive Role := user | model.

Module ConversationTurn.
Record t := { role : Role; content : jsstring }.
End ConversationTurn.

Module Profile.
Record t := { name : jsstring; title : jsstring; picture : option jsstring }.
End Profile.

(** An object is truthy whatever it holds. *)
#[export] Instance Truthy_ImagePayload : Truthy ImagePayload.t := fun _ => true.

(** The browser's [FileList]. *)
Definition FileList := list File.t.
#[export] Instance Truthy_FileList : Truthy FileList := fun _ => true.

(** ** Promises *)

(** A thrown value other than null and undefined, read through
    [e as Error]: its [message], undefined when the value has none. *)
Module JsError.
Record t := { message : option jsstring }.
End JsError.

(** What a promise rejects with.  Reading [message] off null or undefined
    throws a TypeError; off any other value it yields the property, or
    undefined. *)
Inductive Thrown :=
| Nullish
| Value (e : JsError.t).

Inductive Settled (A : Type) :=
| Resolved (value : A)
| Rejected (e : Thrown).
Arguments Resolved {A} value.
Arguments Rejected {A} e.

(** ** The state of the component *)

(** Modelled from the spec: the cells of the [usePdfProcessor] hook, whose
    file is not part of the sources at hand.  The hook returns
    [processedDocs], [isProcessing] and [error] together with the setters
    [setProcessedDocs] and [setError], taken as plain setters of their
    cells; [setError(null)] shows that [error] is a string or null. *)
Module PdfProcessor.
Record t := {
  processedDocs : list PdfDocument.t;
  isProcessing : bool;
  error : option jsstring
}.

Definition initial : t :=
  {| processedDocs := []; isProcessing := false; error := None |}.
End PdfProcessor.

Record State := {
  pdf : PdfProcessor.t;
  conversation : list ConversationTurn.t;
  isGenerating : bool;
  apiError : jsstring;
  image : option ImagePayload.t;
  quiz : option (list QuizQuestion.t);
  isGeneratingQuiz : bool;
  isAnnotatorOpen : bool;
  isQuizModalOpen : bool;
  isProfileModalOpen : bool;
  profile : Profile.t
}.

(** The names [App] gives to what the hook returns. *)
Definition processedDocs (s : State) := PdfProcessor.processedDocs (pdf s).
Definition isPdfProcessing (s : State) := PdfProcessor.isProcessing (pdf s).
Definition pdfError (s : State) := PdfProcessor.error (pdf s).

(** The state of the first render. *)
Definition initialState : State := {|
  pdf := PdfProcessor.initial;
  conversation := [];
  isGenerating := false;
  apiError := [];
  image := None;
  quiz := None;
  isGeneratingQuiz := false;
  isAnnotatorOpen := false;
  isQuizModalOpen := false;
  isProfileModalOpen := false;
  profile := {| Profile.name := lit "Alex Johnson";
                Profile.title := lit "Student";
                Profile.picture := None |}
|}.

(** ** State setters *)

(** One setter per [useState] cell.  [setConversation] is only ever called
    with an updater [prev => ...], which React applies to the value the cell
    holds when the update is processed. *)

Definition setPdf (f : PdfProcessor.t -> PdfProcessor.t) (s : State) : State :=
  {| pdf := f (pdf s); conversation := conversation s;
     isGenerating := isGenerating s; apiError := apiError s; image := image s;
     quiz := quiz s; isGeneratingQuiz := isGeneratingQuiz s;
     isAnnotatorOpen := isAnnotatorOpen s; isQuizModalOpen := isQuizModalOpen s;
     isProfileModalOpen := isProfileModalOpen s; profile := profile s |}.

Definition setProcessedDocs (v : list PdfDocument.t) : State -> State :=
  setPdf (fun p =>
    {| PdfProcessor.processedDocs := v;
       PdfProcessor.isProcessing := PdfProcessor.isProcessing p;
       PdfProcessor.error := PdfProcessor.error p |}).

(** The hook's [setError], which [App] calls [setPdfError]. *)
Definition setPdfError (v : option jsstring) : State -> State :=
  setPdf (fun p =>
    {| PdfProcessor.processedDocs := PdfProcessor.processedDocs p;
       PdfProcessor.isProcessing := PdfProcessor.isProcessing p;
       PdfProcessor.error := v |}).

Definition setConversation
    (f : list ConversationTurn.t -> list ConversationTurn.t) (s : State) : State :=
  {| pdf := pdf s; conversation := f (conversation s);
     isGenerating := isGenerating s; apiError := apiError s; image := image s;
     quiz := quiz s; isGeneratingQuiz := isGeneratingQuiz s;
     isAnnotatorOpen := isAnnotatorOpen s; isQuizModalOpen := isQuizModalOpen s;
     isProfileModalOpen := isProfileModalOpen s; profile := profile s |}.

Definition setIsGenerating (v : bool) (s : State) : State :=
  {| pdf := pdf s; conversation := conversation s;
     isGenerating := v; apiError := apiError s; image := image s;
     quiz := quiz s; isGeneratingQuiz := isGeneratingQuiz s;
     isAnnotatorOpen := isAnnotatorOpen s; isQuizModalOpen := isQuizModalOpen s;
     isProfileModalOpen := isProfileModalOpen s; profile := profile s |}.

Definition setApiError (v : jsstring) (s : State) : State :=
  {| pdf := pdf s; conversation := conversation s;
     isGenerating := isGenerating s; apiError := v; image := image s;
     quiz := quiz s; isGeneratingQuiz := isGeneratingQuiz s;
     isAnnotatorOpen := isAnnotatorOpen s; isQuizModalOpen := isQuizModalOpen s;
     isProfileModalOpen := isProfileModalOpen s; profile := profile s |}.

Definition setImage (v : option ImagePayload.t) (s : State) : State :=
  {| pdf := pdf s; conversation := conversation s;
     isGenerating := isGenerating s; apiError := apiError s; image := v;
     quiz := quiz s; isGeneratingQuiz := isGeneratingQuiz s;
     isAnnotatorOpen := isAnnotatorOpen s; isQuizModalOpen := isQuizModalOpen s;
     isProfileModalOpen := isProfileModalOpen s; profile := profile s |}.

Definition setQuiz (v : option (list QuizQuestion.t)) (s : State) : State :=
  {| pdf := pdf s; conversation := conversation s;
     isGenerating := isGenerating s; apiError := apiError s; image := image s;
     quiz := v; isGeneratingQuiz := isGeneratingQuiz s;
     isAnnotatorOpen := isAnnotatorOpen s; isQuizModalOpen := isQuizModalOpen s;
     isProfileModalOpen := isProfileModalOpen s; profile := profile s |}.

Definition setIsGeneratingQuiz (v : bool) (s : State) : State :=
  {| pdf := pdf s; conversation := conversation s;
     isGenerating := isGenerating s; apiError := apiError s; image := image s;
     quiz := quiz s; isGeneratingQuiz := v;
     isAnnotatorOpen := isAnnotatorOpen s; isQuizModalOpen := isQuizModalOpen s;
     isProfileModalOpen := isProfileModalOpen s; profile := profile s |}.

Definition setIsAnnotatorOpen (v : bool) (s : State) : State :=
  {| pdf := pdf s; conversation := conversation s;
     isGenerating := isGenerating s; apiError := apiError s; image := image s;
     quiz := quiz s; isGeneratingQuiz := isGeneratingQuiz s;
     isAnnotatorOpen := v; isQuizModalOpen := isQuizModalOpen s;
     isProfileModalOpen := isProfileModalOpen s; profile := profile s |}.

Definition setIsQuizModalOpen (v : bool) (s : State) : State :=
  {| pdf := pdf s; conversation := conversation s;
     isGenerating := isGenerating s; apiError := apiError s; image := image s;
     quiz := quiz s; isGeneratingQuiz := isGeneratingQuiz s;
     isAnnotatorOpen := isAnnotatorOpen s; isQuizModalOpen := v;
     isProfileModalOpen := isProfileModalOpen s; profile := profile s |}.

Definition setIsProfileModalOpen (v : bool) (s : State) : State :=
  {| pdf := pdf s; conversation := conversation s;
     isGenerating := isGenerating s; apiError := apiError s; image := image s;
     quiz := quiz s; isGeneratingQuiz := isGeneratingQuiz s;
     isAnnotatorOpen := isAnnotatorOpen s; isQuizModalOpen := isQuizModalOpen s;
     isProfileModalOpen := v; profile := profile s |}.

Definition setProfile (v : Profile.t) (s : State) : State :=
  {| pdf := pdf s; conversation := conversation s;
     isGenerating := isGenerating s; apiError := apiError s; image := image s;
     quiz := quiz s; isGeneratingQuiz := isGeneratingQuiz s;
     isAnnotatorOpen := isAnnotatorOpen s; isQuizModalOpen := isQuizModalOpen s;
     isProfileModalOpen := isProfileModalOpen s; profile := v |}.

(** The updates a handler queues while it runs, applied in the order queued. *)
Definition batch (updates : list (State -> State)) (s : State) : State :=
  fold_left (fun acc u => u acc) updates s.

(** ** Derived state (lines 42-43) *)

Definition isLoading (s : State) : bool :=
  isPdfProcessing s || isGenerating s || isGeneratingQuiz s.

Definition error (s : State) : jsstring :=
  or_else (pdfError s) (apiError s).

(** ** Handlers *)

(** Where a handler stands when control returns to the event loop: it has
    returned, or it is suspended on a call to a collaborator. *)
Inductive Step (Req : Type) :=
| Return (s : State)
| Await (s : State) (req : Req).
Arguments Return {Req} s.
Arguments Await {Req} s req.

Definition stateOf {Req} (st : Step Req) : State :=
  match st with Return s => s | Await s _ => s end.

Definition called {Req} (st : Step Req) : option Req :=
  match st with Return _ => None | Await _ req => Some req end.

(** The handler run to its end with nothing else in between: the
    continuation runs on the state the first part left. *)
Definition complete {Req} (st : Step Req) (resume : State -> State) : State :=
  match st with Return s => s | Await s _ => resume s end.

(** The arguments of [getAnswer(question, docsContext, image)]. *)
Record AnswerRequest := {
  req_question : jsstring;
  req_docsContext : list (jsstring * jsstring);
  req_image : option ImagePayload.t
}.

Definition answerFallback : jsstring :=
  lit "An unknown error occurred while generating the answer.".

Definition quizFallback : jsstring :=
  lit "An unknown error occurred while generating the quiz.".

(** [handleQuestionSubmit], up to [await getAnswer(...)].  [image] and
    [processedDocs] are the values of the render the handler closes over. *)
Definition handleQuestionSubmit_begin (question : jsstring) (s : State)
    : Step AnswerRequest :=
  if negb (truthy (trim question)) && negb (truthy (image s)) then Return s
  else
    let newUserTurn :=
      {| ConversationTurn.role := user; ConversationTurn.content := question |} in
    let docsContext :=
      map (fun d => (File.name (PdfDocument.file d), PdfDocument.text d))
          (processedDocs s) in
    Await
      (batch [ setConversation (fun prev => prev ++ [newUserTurn]);
               setIsGenerating true;
               setApiError [] ] s)
      {| req_question := question; req_docsContext := docsContext;
         req_image := image s |}.

(** [handleQuestionSubmit], from the settling of [getAnswer] on: the rest of
    the [try], or the [catch], and then the [finally].  When the promise
    rejects with null or undefined, [error.message] throws inside the
    [catch], which is left before [setApiError]; the [finally] still runs. *)
Definition handleQuestionSubmit_resume (r : Settled jsstring) (s : State) : State :=
  let s1 :=
    match r with
    | Resolved generatedAnswer =>
        let newModelTurn :=
          {| ConversationTurn.role := model;
             ConversationTurn.content := generatedAnswer |} in
        setConversation (fun prev => prev ++ [newModelTurn]) s
    | Rejected Nullish => s
    | Rejected (Value e) =>
        setApiError (or_else (JsError.message e) answerFallback) s
    end in
  setIsGenerating false s1.

Definition handleQuestionSubmit (question : jsstring) (r : Settled jsstring)
    (s : State) : State :=
  complete (handleQuestionSubmit_begin question s) (handleQuestionSubmit_resume r).

(** [handleImageSelect], up to [await fileToBase64(file)]. *)
Definition handleImageSelect_begin (file : File.t) (s : State) : Step File.t :=
  if negb (startsWith (File.type file) (lit "image/")) then
    Return (setApiError (lit "Please select a valid image file.") s)
  else
    Await (setApiError [] s) file.

(** [handleImageSelect], from the settling of [fileToBase64] on.  The
    promise resolves with the part of the data URL after its first comma, as
    the browser's [FileReader] produced it, or rejects when the read fails. *)
Definition handleImageSelect_resume (file : File.t) (r : Settled jsstring)
    (s : State) : State :=
  match r with
  | Resolved base64Data =>
      setImage (Some {| ImagePayload.data := base64Data;
                        ImagePayload.mimeType := File.type file;
                        ImagePayload.name := File.name file |}) s
  | Rejected _ =>
      setApiError (lit "Failed to load the image. Please try again.") s
  end.

Definition handleImageSelect (file : File.t) (r : Settled jsstring) (s : State)
    : State :=
  complete (handleImageSelect_begin file s) (handleImageSelect_resume file r).

Definition handleAnnotateComplete (newImagePayload : ImagePayload.t) : State -> State :=
  batch [ setImage (Some newImagePayload); setIsAnnotatorOpen false ].

(** [Array.prototype.join] on strings. *)
Fixpoint join (sep : jsstring) (parts : list jsstring) : jsstring :=
  match parts with
  | [] => []
  | [p] => p
  | p :: rest => p ++ sep ++ join sep rest
  end.

Definition quizSeparator : jsstring :=
  [10; 10; 45; 45; 45; 10; 10]%N.   (* '\n\n---\n\n' *)

(** [handleGenerateQuiz], up to [await generateQuiz(combinedText)]. *)
Definition handleGenerateQuiz_begin (s : State) : Step jsstring :=
  if (List.length (processedDocs s) =? 0)%nat then Return s
  else
    let combinedText := join quizSeparator (map PdfDocument.text (processedDocs s)) in
    Await
      (batch [ setIsGeneratingQuiz true; setApiError []; setQuiz None ] s)
      combinedText.

(** [handleGenerateQuiz], from the settling of [generateQuiz] on.  As in
    [handleQuestionSubmit], a rejection with null or undefined makes the
    [catch] throw before [setApiError], and the [finally] still runs. *)
Definition handleGenerateQuiz_resume (r : Settled (list QuizQuestion.t))
    (s : State) : State :=
  let s1 :=
    match r with
    | Resolved questions => setQuiz (Some questions) s
    | Rejected Nullish => s
    | Rejected (Value e) =>
        setApiError (or_else (JsError.message e) quizFallback) s
    end in
  setIsGeneratingQuiz false s1.

Definition handleGenerateQuiz (r : Settled (list QuizQuestion.t)) (s : State)
    : State :=
  complete (handleGenerateQuiz_begin s) (handleGenerateQuiz_resume r).

Definition handleClearSession : State -> State :=
  batch [ setProcessedDocs [];
          setConversation (fun _ => []);
          setApiError [];
          setPdfError None;
          setImage None;
          setQuiz None;
          setIsQuizModalOpen false ].

Definition handleProfileSave (newProfile : Profile.t) : State -> State :=
  batch [ setProfile newProfile; setIsProfileModalOpen false ].

(** [handleFileChange], up to [await processPdfs(files)]. *)
Definition handleFileChange_begin (files : option FileList) (s : State)
    : Step FileList :=
  match files with
  | Some fs =>
      if truthy files && (0 <? List.length fs)%nat
      then Await (handleClearSession s) fs
      else Return s
  | None => Return s
  end.

(** ** The operations of the session, each run to its end *)

Section Operations.

(** Modelled from the spec: [processPdfs] belongs to the [usePdfProcessor]
    hook, whose file is not part of the sources at hand.  It is taken as
    any function of the batch and of the hook's own cells, the only state
    a hook can write: it extracts the text of each file, adds a document
    per success, and records one error and stops at the first failure. *)
Variable processPdfs : FileList -> PdfProcessor.t -> PdfProcessor.t.

Definition handleFileChange (files : option FileList) (s : State) : State :=
  match handleFileChange_begin files s with
  | Return s' => s'
  | Await s' fs => setPdf (processPdfs fs) s'
  end.

Inductive Op :=
| Ask (question : jsstring) (r : Settled jsstring)
| GenerateQuiz (r : Settled (list QuizQuestion.t))
| ImageSelect (file : File.t) (r : Settled jsstring)
| AnnotateComplete (newImagePayload : ImagePayload.t)
| ProfileSave (newProfile : Profile.t)
| ClearSession
| FileChange (files : option FileList)
(* the inline callbacks of the render *)
| ClearImage
| OpenAnnotator
| CancelAnnotator
| OpenQuiz
| CloseQuiz
| OpenProfile
| CloseProfile.

Definition run (op : Op) : State -> State :=
  match op with
  | Ask question r => handleQuestionSubmit question r
  | GenerateQuiz r => handleGenerateQuiz r
  | ImageSelect file r => handleImageSelect file r
  | AnnotateComplete newImagePayload => handleAnnotateComplete newImagePayload
  | ProfileSave newProfile => handleProfileSave newProfile
  | ClearSession => handleClearSession
  | FileChange files => handleFileChange files
  | ClearImage => setImage None
  | OpenAnnotator => setIsAnnotatorOpen true
  | CancelAnnotator => setIsAnnotatorOpen false
  | OpenQuiz => setIsQuizModalOpen true
  | CloseQuiz => setIsQuizModalOpen false
  | OpenProfile => setIsProfileModalOpen true
  | CloseProfile => setIsProfileModalOpen false
  end.

(** The operations that reset the conversation. *)
Definition clears (op : Op) : bool :=
  match op with
  | ClearSession | FileChange _ => true
  | _ => false
  end.

Definition runAll (ops : list Op) (s : State) : State :=
  fold_left (fun acc op => run op acc) ops s.

End Operations.

(** ** The input guard of Ask, as a proposition *)

(** The question has a non-empty trimmed form, or an image is attached. *)
Definition passesGuard (question : jsstring) (s : State) : Prop :=
  trim question <> [] \/ image s <> None.

(** ** Vocabulary and sample data for the properties *)

Definition userTurn (q : jsstring) : ConversationTurn.t :=
  {| ConversationTurn.role := user; ConversationTurn.content := q |}.

Definition modelTurn (a : jsstring) : ConversationTurn.t :=
  {| ConversationTurn.role := model; ConversationTurn.content := a |}.

Definition sampleImage : ImagePayload.t :=
  {| ImagePayload.data := lit "iVBORw0KGgo=";
     ImagePayload.mimeType := lit "image/png";
     ImagePayload.name := lit "cell.png" |}.

Definition invalidImageMessage : jsstring :=
  lit "Please select a valid image file.".

Definition samplePdf : File.t :=
  {| File.name := lit "notes.pdf"; File.type := lit "application/pdf" |}.

(** [s'] has the turns of [s], unchanged and in order, followed by zero or
    more turns. *)
Definition extends (s s' : State) : Prop :=
  exists suffix, conversation s' = conversation s ++ suffix.

(** A processor that adds one document per file to those it already holds. *)
Definition appendingProcessor (files : FileList) (p : PdfProcessor.t)
    : PdfProcessor.t :=
  {| PdfProcessor.processedDocs :=
       PdfProcessor.processedDocs p
       ++ map (fun f => {| PdfDocument.file := f; PdfDocument.text := lit "text" |})
              files;
     PdfProcessor.isProcessing := false;
     PdfProcessor.error := None |}.

Definition busySession : State :=
  setProcessedDocs
    [ {| PdfDocument.file := samplePdf; PdfDocument.text := lit "old" |} ]
    (setImage (Some sampleImage)
       (setApiError (lit "boom")
          (setConversation (fun _ => [userTurn (lit "hi"); modelTurn (lit "hello")])
             initialState))).

(** ** [fileToBase64] (lines 15-26) *)

(** [String.prototype.split] on a separator of one code unit: the part
    before the first separator, and the parts after it. *)
Fixpoint splitParts (sep : N) (s : jsstring) : jsstring * list jsstring :=
  match s with
  | [] => ([], [])
  | c :: rest =>
      let (h, t) := splitParts sep rest in
      if (c =? sep)%N then ([], h :: t) else (c :: h, t)
  end.

Definition split (sep : N) (s : jsstring) : list jsstring :=
  let (h, t) := splitParts sep s in h :: t.

Definition comma : N := 44.

(** How the [FileReader] ends: [onload] with the data URL in [result], or
    [onerror]. *)
Inductive ReaderOutcome :=
| Loaded (result : jsstring)
| Failed.

(** The promise of [fileToBase64]: it resolves with [result.split(',')[1]],
    which is undefined when the split has a single part, and rejects with
    the reader's error event, which has no [message]. *)
Definition fileToBase64 (o : ReaderOutcome) : Settled (option jsstring) :=
  match o with
  | Loaded result => Resolved (nth_error (split comma result) 1)
  | Failed => Rejected (Value {| JsError.message := None |})
  end.

(** ** What the render shows (lines 137-280) *)

(** An array is an object, truthy also when empty. *)
#[export] Instance Truthy_quiz : Truthy (list QuizQuestion.t) := fun _ => true.

(** [a || b] on two strings. *)
Definition or_string (a b : jsstring) : jsstring :=
  if truthy a then a else b.

(** [processedDocs.length > 0]: the Clear Session button and the document
    list are rendered, and [docsLoaded] is passed down. *)
Definition docsLoaded (s : State) : bool :=
  (0 <? List.length (processedDocs s))%nat.

(** [quiz && !isGeneratingQuiz]: the View Practice Quiz button is rendered. *)
Definition quizButtonShown (s : State) : bool :=
  truthy (quiz s) && negb (isGeneratingQuiz s).

(** The [error] prop of [AnswerDisplay] (line 236). *)
Definition answerDisplayError (s : State) : option jsstring :=
  if negb (isGeneratingQuiz s)
  then Some (or_string (apiError s) (error s))
  else None.

(** The [disabled] prop of [QuestionInput]. *)
Definition questionInputDisabled (s : State) : bool := isLoading s.

(** [isAnnotatorOpen && image]: the annotator is rendered. *)
Definition annotatorShown (s : State) : bool :=
  isAnnotatorOpen s && truthy (image s).

(** ** Shape of a conversation *)

(** Every model turn comes directly after a user turn; [prevUser] tells
    whether the turn before the list is a user turn. *)
Fixpoint answered (prevUser : bool) (turns : list ConversationTurn.t) : bool :=
  match turns with
  | [] => true
  | t :: rest =>
      match ConversationTurn.role t with
      | user => answered true rest
      | model => prevUser && answered false rest
      end
  end.

Definition answersFollowQuestions (turns : list ConversationTurn.t) : bool :=
  answered false turns.

Definition sampleImageFile : File.t :=
  {| File.name := lit "cell.png"; File.type := lit "image/png" |}.

Definition sampleDoc : PdfDocument.t :=
  {| PdfDocument.file := samplePdf; PdfDocument.text := lit "Chlorophyll absorbs light." |}.

Definition sampleQuestion : QuizQuestion.t :=
  {| QuizQuestion.question := lit "What absorbs light?";
     QuizQuestion.options := [lit "Chlorophyll"; lit "Starch"];
     QuizQuestion.answer := lit "Chlorophyll" |}.

Definition oneDocSession : State := setProcessedDocs [sampleDoc] initialState.

(** Runs of operations, for the examples. *)
Definition sampleRun : list Op :=
  [ Ask (lit "Why?") (Rejected (Value {| JsError.message := None |}));
    ImageSelect sampleImageFile (Resolved (lit "iVBORw0KGgo="));
    Ask [] (Resolved (lit "A cell."));
    FileChange (Some [samplePdf]);
    GenerateQuiz (Resolved [sampleQuestion]);
    Ask (lit "What?") (Rejected Nullish);
    GenerateQuiz (Rejected Nullish);
    Ask (lit "How?") (Resolved (lit "Like this.")) ].

Definition sampleChat : list Op :=
  [ Ask (lit "Why?") (Rejected (Value {| JsError.message := None |}));
    ImageSelect sampleImageFile (Resolved (lit "iVBORw0KGgo="));
    ClearImage;
    Ask (lit "How?") (Resolved (lit "Like this.")) ].

(** * Properties *)

(** ** Strings *)

Lemma trimStart_nil_iff (s : jsstring) :
  trimStart s = [] <-> forallb isWhiteSpace s = true.
Proof.
  induction s as [|c rest IH]; simpl.
  - tauto.
  - destruct (isWhiteSpace c); simpl.
    + exact IH.
    + split; discriminate.
Qed.

Lemma trimStart_head (s : jsstring) (c : N) (rest : jsstring) :
  trimStart s = c :: rest -> isWhiteSpace c = false.
Proof.
  induction s as [|d s' IH]; simpl.
  - discriminate.
  - destruct (isWhiteSpace d) eqn:Hd.
    + exact IH.
    + intros H. injection H as -> _. exact Hd.
Qed.

Lemma forallb_rev {A} (f : A -> bool) (l : list A) :
  forallb f (rev l) = forallb f l.
Proof.
  induction l as [|x l IH]; simpl.
  - reflexivity.
  - rewrite forallb_app, IH. simpl. rewrite andb_true_r. apply andb_comm.
Qed.

(** The trimmed form is empty exactly when every code unit is white space. *)
Lemma trim_nil_iff (s : jsstring) :
  trim s = [] <-> forallb isWhiteSpace s = true.
Proof.
  unfold trim, trimEnd. split.
  - intros H.
    assert (Hr : trimStart (rev (trimStart s)) = []).
    { destruct (trimStart (rev (trimStart s))) as [|x l] eqn:E.
      - reflexivity.
      - simpl in H. destruct (rev l); discriminate. }
    apply trimStart_nil_iff in Hr. rewrite forallb_rev in Hr.
    destruct (trimStart s) as [|c rest] eqn:E.
    + apply trimStart_nil_iff. exact E.
    + apply trimStart_head in E. simpl in Hr. rewrite E in Hr. discriminate.
  - intros H. apply trimStart_nil_iff in H. rewrite H. reflexivity.
Qed.

Example trim_inner_space_kept :
  trim (lit "  light and  energy ") = lit "light and  energy".
Proof. reflexivity. Qed.

Example trim_line_terminators_and_nbsp :
  trim [9; 10; 13; 160; 8232; 65279; 32]%N = [].
Proof. reflexivity. Qed.

Example zero_width_space_is_not_white_space :
  trim [8203]%N = [8203]%N.
Proof. reflexivity. Qed.

Example join_three :
  join quizSeparator [lit "a"; lit "b"; lit "c"] = lit "a" ++ quizSeparator ++ lit "b" ++ quizSeparator ++ lit "c".
Proof. reflexivity. Qed.

(** [startsWith] holds exactly of the strings that extend the prefix. *)
Lemma startsWith_spec (s p : jsstring) :
  startsWith s p = true <-> exists rest, s = p ++ rest.
Proof.
  revert s. induction p as [|x p IH]; intros s.
  - destruct s; simpl; split; eauto.
  - destruct s as [|c cs]; simpl.
    + split; [discriminate | intros [rest H]; discriminate].
    + rewrite andb_true_iff, N.eqb_eq, IH. split.
      * intros [-> [rest ->]]. eauto.
      * intros [rest H]. injection H as -> ->. eauto.
Qed.

(** ** The input guard of Ask *)

Lemma guard_false (question : jsstring) (s : State) :
  passesGuard question s ->
  negb (truthy (trim question)) && negb (truthy (image s)) = false.
Proof.
  intros [Hq | Hi].
  - destruct (trim question); [congruence | reflexivity].
  - destruct (image s); [apply andb_false_r | congruence].
Qed.

Lemma guard_true (question : jsstring) (s : State) :
  trim question = [] -> image s = None ->
  negb (truthy (trim question)) && negb (truthy (image s)) = true.
Proof. intros -> ->. reflexivity. Qed.

Lemma ask_begin_awaits (question : jsstring) (s : State) :
  passesGuard question s ->
  handleQuestionSubmit_begin question s =
  Await
    (setApiError [] (setIsGenerating true
       (setConversation
          (fun prev => prev ++ [ {| ConversationTurn.role := user;
                                    ConversationTurn.content := question |} ]) s)))
    {| req_question := question;
       req_docsContext :=
         map (fun d => (File.name (PdfDocument.file d), PdfDocument.text d))
             (processedDocs s);
       req_image := image s |}.
Proof.
  intros H. unfold handleQuestionSubmit_begin.
  rewrite (guard_false H). reflexivity.
Qed.

(** [a || fallback] is never the empty string when the fallback is not. *)
Lemma or_else_nonempty (m : option jsstring) (fallback : jsstring) :
  fallback <> [] -> or_else m fallback <> [].
Proof.
  intros Hf. destruct m as [[|c m]|]; simpl; try assumption. discriminate.
Qed.

(** ** Ask *)

(** C1.  When the question passes the input guard and the answer service
    resolves with [a], Ask appends exactly two turns at the end of the
    conversation: the user turn holding the question, then the model turn
    holding the answer; the length grows by two. *)
Theorem ask_success_appends_user_then_model
    (q a : jsstring) (s : State) :
  passesGuard q s ->
  conversation (handleQuestionSubmit q (Resolved a) s) =
    conversation s ++ [userTurn q; modelTurn a]
  /\ List.length (conversation (handleQuestionSubmit q (Resolved a) s)) =
       List.length (conversation s) + 2.
Proof.
  intros H. unfold handleQuestionSubmit.
  rewrite (ask_begin_awaits H). cbn.
  rewrite <- app_assoc. split.
  - reflexivity.
  - rewrite length_app. reflexivity.
Qed.

(** The example of the specification: the first question of a session. *)
Lemma ask_photosynthesis_example :
  passesGuard (lit "What is photosynthesis?") initialState
  /\ conversation
       (handleQuestionSubmit (lit "What is photosynthesis?")
          (Resolved (lit "Photosynthesis converts light to energy."))
          initialState)
     = [ userTurn (lit "What is photosynthesis?");
         modelTurn (lit "Photosynthesis converts light to energy.") ].
Proof.
  split.
  - left. vm_compute. discriminate.
  - apply (ask_success_appends_user_then_model
             (q := lit "What is photosynthesis?")
             (lit "Photosynthesis converts light to energy.")
             (s := initialState)).
    left. vm_compute. discriminate.
Defined.




(** C3.  A question whose trimmed form is empty, with no image attached, is
    dropped: the handler returns at once without calling the answer service,
    and the whole state (conversation, error, flags) is what it was. *)
Theorem ask_blank_is_noop (q : jsstring) (s : State) :
  trim q = [] -> image s = None ->
  handleQuestionSubmit_begin q s = Return s
  /\ forall r, handleQuestionSubmit q r s = s.
Proof.
  intros Hq Hi.
  assert (E : handleQuestionSubmit_begin q s = Return s).
  { unfold handleQuestionSubmit_begin. rewrite (guard_true _ _ Hq Hi). reflexivity. }
  split.
  - exact E.
  - intros r. unfold handleQuestionSubmit. rewrite E. reflexivity.
Qed.

Lemma ask_blank_example :
  trim (lit "  ") = [] /\ image initialState = None
  /\ handleQuestionSubmit_begin (lit "  ") initialState = Return initialState
  /\ forall r, handleQuestionSubmit (lit "  ") r initialState = initialState.
Proof.
  split; [reflexivity | split; [reflexivity |]].
  apply (@ask_blank_is_noop (lit "  ") initialState); reflexivity.
Defined.

(** C8.  Ask never touches the attached image: when the question passes the
    input guard, the image after the operation is the image before it,
    whether the answer service resolves or rejects. *)
Theorem ask_preserves_image (q : jsstring) (r : Settled jsstring) (s : State) :
  passesGuard q s ->
  image (handleQuestionSubmit q r s) = image s.
Proof.
  intros H. unfold handleQuestionSubmit.
  rewrite (ask_begin_awaits H).
  destruct r as [? | [|?]]; reflexivity.
Qed.

Lemma ask_preserves_image_example :
  passesGuard [] (setImage (Some sampleImage) initialState)
  /\ image (handleQuestionSubmit [] (Rejected (Value {| JsError.message := None |}))
              (setImage (Some sampleImage) initialState))
     = Some sampleImage.
Proof.
  split.
  - right. discriminate.
  - apply (@ask_preserves_image [] (Rejected (Value {| JsError.message := None |}))
             (setImage (Some sampleImage) initialState)).
    right. discriminate.
Defined.

(** Each half of Ask leaves the image alone on the state it runs on, so the
    image survives Ask also when other handlers run between the two halves. *)
Lemma ask_halves_preserve_image (q : jsstring) (r : Settled jsstring) (s : State) :
  image (stateOf (handleQuestionSubmit_begin q s)) = image s
  /\ image (handleQuestionSubmit_resume r s) = image s.
Proof.
  split.
  - unfold handleQuestionSubmit_begin.
    destruct (negb (truthy (trim q)) && negb (truthy (image s))); reflexivity.
  - destruct r as [? | [|?]]; reflexivity.
Qed.

(** The request of the first question of a session: no documents, no image. *)
Example ask_photosynthesis_request :
  called (handleQuestionSubmit_begin (lit "What is photosynthesis?") initialState)
  = Some {| req_question := lit "What is photosynthesis?";
            req_docsContext := [];
            req_image := None |}.
Proof. reflexivity. Qed.

(** The flag is up and the error cleared while the answer is awaited. *)
Lemma ask_begin_raises_flag (q : jsstring) (s : State) :
  passesGuard q s ->
  isGenerating (stateOf (handleQuestionSubmit_begin q s)) = true
  /\ apiError (stateOf (handleQuestionSubmit_begin q s)) = [].
Proof.
  intros H. rewrite (ask_begin_awaits H). split; reflexivity.
Qed.

(** ** Clear Session *)

(** C4.  Whatever the state was, after Clear Session there are no documents,
    no turns, no image, no quiz, [apiError] is the empty string, [pdfError]
    is null and the quiz view is closed.  Clearing a cleared session changes
    nothing, and neither does clearing the session of the first render. *)
Theorem clear_session_resets_and_is_idempotent (s : State) :
  processedDocs (handleClearSession s) = []
  /\ conversation (handleClearSession s) = []
  /\ image (handleClearSession s) = None
  /\ quiz (handleClearSession s) = None
  /\ apiError (handleClearSession s) = []
  /\ pdfError (handleClearSession s) = None
  /\ isQuizModalOpen (handleClearSession s) = false
  /\ handleClearSession (handleClearSession s) = handleClearSession s
  /\ handleClearSession initialState = initialState.
Proof. repeat split. Qed.

(** X22.  What Clear Session leaves alone: the three busy flags (a call
    under way stays under way), the annotator and profile views, and the
    profile. *)
Lemma clear_session_frame (s : State) :
  isPdfProcessing (handleClearSession s) = isPdfProcessing s
  /\ isGenerating (handleClearSession s) = isGenerating s
  /\ isGeneratingQuiz (handleClearSession s) = isGeneratingQuiz s
  /\ isAnnotatorOpen (handleClearSession s) = isAnnotatorOpen s
  /\ isProfileModalOpen (handleClearSession s) = isProfileModalOpen s
  /\ profile (handleClearSession s) = profile s.
Proof. repeat split. Qed.

(** ** Derived signals *)

(** C5.  [isLoading] is true exactly when one of the three activities is
    under way, and [error] is [pdfError] when that is a non-empty string and
    [apiError] otherwise (when [pdfError] is null or empty). *)
Theorem derived_busy_and_error (s : State) :
  (isLoading s = true <->
     isPdfProcessing s = true \/ isGenerating s = true \/ isGeneratingQuiz s = true)
  /\ error s =
       match pdfError s with
       | Some (c :: m) => c :: m
       | Some [] | None => apiError s
       end.
Proof.
  split.
  - unfold isLoading. rewrite !orb_true_iff. tauto.
  - unfold error. destruct (pdfError s) as [[|c m]|]; reflexivity.
Qed.

(** ** Generate Quiz *)

(** C6.  With no processed document, Generate Quiz returns at once without
    calling the quiz service, and the whole state (quiz, busy flag, error) is
    what it was. *)
Theorem generate_quiz_without_docs_is_noop (s : State) :
  processedDocs s = [] ->
  handleGenerateQuiz_begin s = Return s
  /\ forall r, handleGenerateQuiz r s = s.
Proof.
  intros H.
  assert (E : handleGenerateQuiz_begin s = Return s).
  { unfold handleGenerateQuiz_begin. rewrite H. reflexivity. }
  split.
  - exact E.
  - intros r. unfold handleGenerateQuiz. rewrite E. reflexivity.
Qed.

Lemma generate_quiz_without_docs_example :
  processedDocs initialState = []
  /\ handleGenerateQuiz_begin initialState = Return initialState
  /\ forall r, handleGenerateQuiz r initialState = initialState.
Proof.
  split; [reflexivity |].
  apply (@generate_quiz_without_docs_is_noop initialState). reflexivity.
Defined.

(** ** Image selection *)

(** C7.  For a file whose type does not begin with [image/], image selection
    returns without reading the file: the attached image is what it was, no
    payload is built whatever the reader would have produced, and [apiError]
    holds the non-empty text asking for a valid image file. *)
Theorem select_non_image_sets_error_keeps_image
    (file : File.t) (r : Settled jsstring) (s : State) :
  (~ exists rest, File.type file = lit "image/" ++ rest) ->
  called (handleImageSelect_begin file s) = None
  /\ image (handleImageSelect file r s) = image s
  /\ apiError (handleImageSelect file r s) = invalidImageMessage
  /\ apiError (handleImageSelect file r s) <> [].
Proof.
  intros H.
  assert (E : startsWith (File.type file) (lit "image/") = false).
  { destruct (startsWith (File.type file) (lit "image/")) eqn:E; [|reflexivity].
    exfalso. apply H. apply startsWith_spec. exact E. }
  unfold handleImageSelect, handleImageSelect_begin. rewrite E. cbn.
  repeat split. discriminate.
Qed.

Lemma select_non_image_example :
  (~ exists rest, File.type samplePdf = lit "image/" ++ rest)
  /\ called (handleImageSelect_begin samplePdf initialState) = None
  /\ image (handleImageSelect samplePdf (Resolved (lit "JVBERi0=")) initialState)
     = None
  /\ apiError (handleImageSelect samplePdf (Resolved (lit "JVBERi0=")) initialState)
     = invalidImageMessage
  /\ apiError (handleImageSelect samplePdf (Resolved (lit "JVBERi0=")) initialState)
     <> [].
Proof.
  assert (H : ~ exists rest, File.type samplePdf = lit "image/" ++ rest).
  { intros [rest E]. vm_compute in E. discriminate. }
  split; [exact H |].
  exact (@select_non_image_sets_error_keeps_image samplePdf
           (Resolved (lit "JVBERi0=")) initialState H).
Defined.

(** ** The conversation over all operations *)

Lemma extends_refl (s : State) : extends s s.
Proof. exists []. symmetry. apply app_nil_r. Qed.

Lemma extends_trans (s1 s2 s3 : State) :
  extends s1 s2 -> extends s2 s3 -> extends s1 s3.
Proof.
  intros [l1 H1] [l2 H2]. exists (l1 ++ l2).
  rewrite H2, H1. symmetry. apply app_assoc.
Qed.

Lemma extends_same (s s' : State) :
  conversation s' = conversation s -> extends s s'.
Proof. intros H. exists []. rewrite H. symmetry. apply app_nil_r. Qed.

(** Each half of Ask extends the conversation of the state it runs on,
    whatever happened between the two halves. *)
Lemma ask_begin_extends (q : jsstring) (s : State) :
  extends s (stateOf (handleQuestionSubmit_begin q s)).
Proof.
  unfold handleQuestionSubmit_begin.
  destruct (negb (truthy (trim q)) && negb (truthy (image s))).
  - apply extends_refl.
  - eexists. reflexivity.
Qed.

Lemma ask_resume_extends (r : Settled jsstring) (s : State) :
  extends s (handleQuestionSubmit_resume r s).
Proof.
  destruct r as [? | [|?]].
  - eexists. reflexivity.
  - apply extends_same. reflexivity.
  - apply extends_same. reflexivity.
Qed.

Lemma ask_extends (q : jsstring) (r : Settled jsstring) (s : State) :
  extends s (handleQuestionSubmit q r s).
Proof.
  unfold handleQuestionSubmit.
  pose proof (ask_begin_extends q s) as Hb.
  destruct (handleQuestionSubmit_begin q s) as [s'|s' req]; simpl in *.
  - exact Hb.
  - eapply extends_trans; [exact Hb | apply ask_resume_extends].
Qed.

Lemma generate_quiz_keeps_conversation (r : Settled (list QuizQuestion.t)) (s : State) :
  conversation (handleGenerateQuiz r s) = conversation s.
Proof.
  unfold handleGenerateQuiz, handleGenerateQuiz_begin.
  destruct (List.length (processedDocs s) =? 0); [reflexivity |].
  destruct r as [? | [|?]]; reflexivity.
Qed.

Lemma image_select_keeps_conversation (file : File.t) (r : Settled jsstring) (s : State) :
  conversation (handleImageSelect file r s) = conversation s.
Proof.
  unfold handleImageSelect, handleImageSelect_begin.
  destruct (negb (startsWith (File.type file) (lit "image/"))); [reflexivity |].
  destruct r as [? | [|?]]; reflexivity.
Qed.

(** A null or empty batch is ignored. *)
Lemma file_change_begin_ignores_empty (s : State) :
  handleFileChange_begin None s = Return s
  /\ handleFileChange_begin (Some []) s = Return s.
Proof. split; reflexivity. Qed.

Section OperationsProperties.

Variable processPdfs : FileList -> PdfProcessor.t -> PdfProcessor.t.

Lemma file_change_conversation (files : option FileList) (s : State) :
  conversation (handleFileChange processPdfs files s) = conversation s
  \/ conversation (handleFileChange processPdfs files s) = [].
Proof.
  destruct files as [[|f fs]|]; [left | right | left]; reflexivity.
Qed.

Lemma run_extends_unless_clears (op : Op) (s : State) :
  clears op = false -> extends s (run processPdfs op s).
Proof.
  destruct op; simpl; intros Hc; try discriminate;
    try (apply extends_same; reflexivity).
  - apply ask_extends.
  - apply extends_same. apply generate_quiz_keeps_conversation.
  - apply extends_same. apply image_select_keeps_conversation.
Qed.

Lemma run_clears_conversation (op : Op) (s : State) :
  clears op = true ->
  conversation (run processPdfs op s) = conversation s
  \/ conversation (run processPdfs op s) = [].
Proof.
  destruct op; simpl; intros Hc; try discriminate.
  - right. reflexivity.
  - apply file_change_conversation.
Qed.

(** C9.  Every operation leaves the conversation an extension of what it
    was (the earlier turns unchanged and in order, zero or more turns
    after them); the only other outcome is the empty conversation, and
    only Clear Session and a file upload produce it. *)
Theorem conversation_append_only_except_clear (op : Op) (s : State) :
  extends s (run processPdfs op s)
  \/ (clears op = true /\ conversation (run processPdfs op s) = []).
Proof.
  destruct (clears op) eqn:Hc.
  - destruct (run_clears_conversation op s Hc) as [H | H].
    + left. apply extends_same. exact H.
    + right. split; [reflexivity | exact H].
  - left. apply run_extends_unless_clears. exact Hc.
Qed.

(** X21.  Along any run of operations none of which is Clear Session or a
    file upload, the conversation only grows at its end: the turns it had
    are still there, unchanged and in order, before whatever was added. *)
Lemma conversation_grows_along_run (ops : list Op) (s : State) :
  forallb (fun op => negb (clears op)) ops = true ->
  extends s (runAll processPdfs ops s).
Proof.
  revert s. induction ops as [|op ops IH]; intros s H; simpl in *.
  - apply extends_refl.
  - apply andb_true_iff in H as [Hop Hops].
    apply negb_true_iff in Hop.
    eapply extends_trans; [apply run_extends_unless_clears; exact Hop |].
    apply IH. exact Hops.
Qed.

(** C10.  Uploading a non-empty batch clears the session before the batch
    is processed: processing starts from the cleared session, so the
    outcome is that of uploading into a cleared session, the document
    processor works from no documents and no error, and the conversation,
    the image, the quiz and [apiError] of before are gone. *)
Theorem upload_clears_session_first (files : FileList) (s : State) :
  files <> [] ->
  handleFileChange_begin (Some files) s = Await (handleClearSession s) files
  /\ handleFileChange processPdfs (Some files) s =
       handleFileChange processPdfs (Some files) (handleClearSession s)
  /\ conversation (handleFileChange processPdfs (Some files) s) = []
  /\ image (handleFileChange processPdfs (Some files) s) = None
  /\ quiz (handleFileChange processPdfs (Some files) s) = None
  /\ apiError (handleFileChange processPdfs (Some files) s) = []
  /\ pdf (handleFileChange processPdfs (Some files) s) =
       processPdfs files
         {| PdfProcessor.processedDocs := [];
            PdfProcessor.isProcessing := isPdfProcessing s;
            PdfProcessor.error := None |}.
Proof.
  intros H. destruct files as [|f fs]; [congruence |].
  repeat split.
Qed.

End OperationsProperties.

Lemma upload_clears_session_example :
  [samplePdf] <> []
  /\ conversation (handleFileChange appendingProcessor (Some [samplePdf]) busySession) = []
  /\ image (handleFileChange appendingProcessor (Some [samplePdf]) busySession) = None
  /\ processedDocs (handleFileChange appendingProcessor (Some [samplePdf]) busySession)
     = [ {| PdfDocument.file := samplePdf; PdfDocument.text := lit "text" |} ].
Proof.
  assert (H : [samplePdf] <> []) by discriminate.
  pose proof (@upload_clears_session_first appendingProcessor [samplePdf] busySession H)
    as (_ & _ & Hc & Hi & _ & _ & Hp).
  split; [exact H |].
  split; [exact Hc |].
  split; [exact Hi |].
  exact (f_equal PdfProcessor.processedDocs Hp).
Defined.


(** * Further properties of the handlers *)

(** ** Ask *)

Lemma ask_begin_returns (q : jsstring) (s : State) :
  trim q = [] -> image s = None -> handleQuestionSubmit_begin q s = Return s.
Proof.
  intros Hq Hi. unfold handleQuestionSubmit_begin.
  rewrite (guard_true _ _ Hq Hi). reflexivity.
Qed.

Lemma passesGuard_dec (q : jsstring) (s : State) :
  passesGuard q s \/ (trim q = [] /\ image s = None).
Proof.
  unfold passesGuard.
  destruct (trim q) as [|c m]; [| left; left; discriminate].
  destruct (image s); [left; right; discriminate | right; split; reflexivity].
Qed.

Lemma passesGuard_same_image (q : jsstring) (s s' : State) :
  image s' = image s -> passesGuard q s -> passesGuard q s'.
Proof. unfold passesGuard. intros ->. exact (fun H => H). Qed.

(** X1.  Ask calls the answer service unless the question consists of white
    space only (or is empty) and no image is attached: the guard rejects
    exactly those submissions. *)
Theorem ask_rejects_exactly_blank_without_image (q : jsstring) (s : State) :
  called (handleQuestionSubmit_begin q s) = None
  <-> (forallb isWhiteSpace q = true /\ image s = None).
Proof.
  rewrite <- trim_nil_iff.
  destruct (passesGuard_dec q s) as [H | [Hq Hi]].
  - rewrite (ask_begin_awaits H). simpl. split; [discriminate |].
    intros [Hq Hi]. destruct H as [H | H]; contradiction.
  - rewrite (ask_begin_returns _ _ Hq Hi). simpl. tauto.
Qed.

(** X2.  A successful Ask leaves [apiError] empty and [isGenerating] false,
    whatever they were, and changes nothing else but the conversation. *)
Theorem ask_success_clears_error_and_keeps_rest
    (q a : jsstring) (s : State) :
  passesGuard q s ->
  let s' := handleQuestionSubmit q (Resolved a) s in
  apiError s' = [] /\ isGenerating s' = false
  /\ pdf s' = pdf s /\ image s' = image s /\ quiz s' = quiz s
  /\ isGeneratingQuiz s' = isGeneratingQuiz s
  /\ isAnnotatorOpen s' = isAnnotatorOpen s
  /\ isQuizModalOpen s' = isQuizModalOpen s
  /\ isProfileModalOpen s' = isProfileModalOpen s
  /\ profile s' = profile s.
Proof.
  intros H. unfold handleQuestionSubmit.
  rewrite (ask_begin_awaits H). cbn. repeat split.
Qed.

Lemma ask_success_clears_error_example :
  passesGuard (lit "Why?") busySession
  /\ apiError busySession = lit "boom"
  /\ apiError (handleQuestionSubmit (lit "Why?") (Resolved (lit "Because."))
                 busySession) = [].
Proof.
  assert (H : passesGuard (lit "Why?") busySession).
  { left. vm_compute. discriminate. }
  split; [exact H |]. split; [reflexivity |].
  exact (proj1 (@ask_success_clears_error_and_keeps_rest
                  (lit "Why?") (lit "Because.") busySession H)).
Defined.

(** X3.  A question asked again after a failed one: the failed question
    stays in the conversation without an answer, the new question and its
    answer come after it, and the error of the failure is gone. *)
Theorem ask_again_after_failure
    (q1 q2 a : jsstring) (e : Thrown) (s : State) :
  passesGuard q1 s -> passesGuard q2 s ->
  let s' := handleQuestionSubmit q2 (Resolved a)
              (handleQuestionSubmit q1 (Rejected e) s) in
  conversation s' = conversation s ++ [userTurn q1; userTurn q2; modelTurn a]
  /\ apiError s' = []
  /\ isGenerating s' = false.
Proof.
  intros H1 H2.
  assert (H2' : passesGuard q2 (handleQuestionSubmit q1 (Rejected e) s)).
  { apply (passesGuard_same_image (s := s)); [| exact H2].
    unfold handleQuestionSubmit. rewrite (ask_begin_awaits H1).
    destruct e; reflexivity. }
  cbv zeta. unfold handleQuestionSubmit at 1 3 5.
  rewrite (ask_begin_awaits H2'). cbn [complete].
  unfold handleQuestionSubmit. rewrite (ask_begin_awaits H1).
  destruct e; cbn; repeat split; rewrite <- !app_assoc; reflexivity.
Qed.

Lemma ask_again_after_failure_example :
  passesGuard (lit "Why?") initialState /\ passesGuard (lit "How?") initialState
  /\ conversation
       (handleQuestionSubmit (lit "How?") (Resolved (lit "Like this."))
          (handleQuestionSubmit (lit "Why?")
             (Rejected (Value {| JsError.message := Some (lit "quota exceeded") |}))
             initialState))
     = [userTurn (lit "Why?"); userTurn (lit "How?"); modelTurn (lit "Like this.")].
Proof.
  assert (H1 : passesGuard (lit "Why?") initialState).
  { left. vm_compute. discriminate. }
  assert (H2 : passesGuard (lit "How?") initialState).
  { left. vm_compute. discriminate. }
  split; [exact H1 |]. split; [exact H2 |].
  exact (proj1 (@ask_again_after_failure (lit "Why?") (lit "How?") (lit "Like this.")
                  (Value {| JsError.message := Some (lit "quota exceeded") |})
                  initialState H1 H2)).
Defined.

(** X4.  Clear Session while an answer is awaited does not cancel the
    call: when the answer arrives it is appended to the cleared
    conversation, which then holds a model turn and no question. *)
Theorem ask_answer_lands_after_clear (q a : jsstring) (s : State) :
  passesGuard q s ->
  let waiting := stateOf (handleQuestionSubmit_begin q s) in
  let s' := handleQuestionSubmit_resume (Resolved a) (handleClearSession waiting) in
  conversation s' = [modelTurn a]
  /\ answersFollowQuestions (conversation s') = false
  /\ processedDocs s' = []
  /\ isGenerating s' = false.
Proof.
  intros H. rewrite (ask_begin_awaits H). cbn. repeat split.
Qed.

Lemma ask_answer_lands_after_clear_example :
  passesGuard (lit "Why?") busySession
  /\ conversation
       (handleQuestionSubmit_resume (Resolved (lit "Because."))
          (handleClearSession
             (stateOf (handleQuestionSubmit_begin (lit "Why?") busySession))))
     = [modelTurn (lit "Because.")].
Proof.
  assert (H : passesGuard (lit "Why?") busySession).
  { left. vm_compute. discriminate. }
  split; [exact H |].
  exact (proj1 (@ask_answer_lands_after_clear (lit "Why?") (lit "Because.")
                  busySession H)).
Defined.

(** X5.  While the answer is awaited the question input is disabled; once
    the answer has settled, either way, it is disabled only by document
    processing or quiz generation. *)
Theorem ask_disables_input_until_settled
    (q : jsstring) (r : Settled jsstring) (s : State) :
  passesGuard q s ->
  questionInputDisabled (stateOf (handleQuestionSubmit_begin q s)) = true
  /\ questionInputDisabled (handleQuestionSubmit q r s)
     = isPdfProcessing s || isGeneratingQuiz s.
Proof.
  intros H. unfold handleQuestionSubmit.
  rewrite (ask_begin_awaits H).
  unfold questionInputDisabled, isLoading. split.
  - cbn. rewrite orb_true_r. reflexivity.
  - destruct r as [? | [|?]]; cbn; rewrite orb_false_r; reflexivity.
Qed.

Lemma ask_disables_input_example :
  passesGuard (lit "Why?") initialState
  /\ questionInputDisabled
       (stateOf (handleQuestionSubmit_begin (lit "Why?") initialState)) = true
  /\ questionInputDisabled
       (handleQuestionSubmit (lit "Why?") (Resolved (lit "Because.")) initialState)
     = false.
Proof.
  assert (H : passesGuard (lit "Why?") initialState).
  { left. vm_compute. discriminate. }
  split; [exact H |].
  exact (@ask_disables_input_until_settled (lit "Why?")
           (Resolved (lit "Because.")) initialState H).
Defined.

(** ** [fileToBase64] *)

Lemma splitParts_without_sep (sep : N) (s : jsstring) :
  ~ In sep s -> splitParts sep s = (s, []).
Proof.
  induction s as [|c rest IH]; simpl; intros H.
  - reflexivity.
  - rewrite IH by tauto.
    destruct (N.eqb_spec c sep) as [E | _]; [| reflexivity].
    exfalso. apply H. left. exact E.
Qed.

Lemma split_at_first_sep (sep : N) (before after : jsstring) :
  ~ In sep before ->
  split sep (before ++ sep :: after) = before :: split sep after.
Proof.
  unfold split. induction before as [|c rest IH]; simpl; intros H.
  - destruct (splitParts sep after). rewrite N.eqb_refl. reflexivity.
  - assert (Hr : ~ In sep rest) by tauto. specialize (IH Hr).
    destruct (splitParts sep (rest ++ sep :: after)) as [h t].
    destruct (splitParts sep after) as [h' t'].
    injection IH as -> ->.
    destruct (N.eqb_spec c sep) as [E | _]; [| reflexivity].
    exfalso. apply H. left. exact E.
Qed.

(** X6.  For a data URL whose header has no comma, [fileToBase64] resolves
    with what stands between the first comma and the next one, or the end:
    a payload without commas, as base64 is, comes back whole, and anything
    after a second comma is dropped. *)
Theorem fileToBase64_takes_payload (header payload tail : jsstring) :
  ~ In comma header -> ~ In comma payload ->
  fileToBase64 (Loaded (header ++ comma :: payload)) = Resolved (Some payload)
  /\ fileToBase64 (Loaded (header ++ comma :: payload ++ comma :: tail))
     = Resolved (Some payload).
Proof.
  intros Hh Hp. unfold fileToBase64. split.
  - rewrite split_at_first_sep by exact Hh. unfold split.
    rewrite splitParts_without_sep by exact Hp. reflexivity.
  - rewrite split_at_first_sep by exact Hh.
    rewrite split_at_first_sep by exact Hp. reflexivity.
Qed.

Lemma fileToBase64_png_example :
  ~ In comma (lit "data:image/png;base64") /\ ~ In comma (lit "iVBORw0KGgo=")
  /\ fileToBase64 (Loaded (lit "data:image/png;base64,iVBORw0KGgo="))
     = Resolved (Some (lit "iVBORw0KGgo=")).
Proof.
  assert (Hh : ~ In comma (lit "data:image/png;base64")).
  { vm_compute. intros H. repeat (destruct H as [H | H]; [discriminate |]). exact H. }
  assert (Hp : ~ In comma (lit "iVBORw0KGgo=")).
  { vm_compute. intros H. repeat (destruct H as [H | H]; [discriminate |]). exact H. }
  split; [exact Hh |]. split; [exact Hp |].
  exact (proj1 (@fileToBase64_takes_payload (lit "data:image/png;base64")
                  (lit "iVBORw0KGgo=") [] Hh Hp)).
Defined.

(** X7.  When the reader's result has no comma at all, [fileToBase64] does
    not reject: it resolves with undefined. *)
Theorem fileToBase64_without_comma_is_undefined (result : jsstring) :
  ~ In comma result ->
  fileToBase64 (Loaded result) = Resolved None.
Proof.
  intros H. unfold fileToBase64, split.
  rewrite splitParts_without_sep by exact H. reflexivity.
Qed.

Lemma fileToBase64_without_comma_example :
  ~ In comma (lit "data:") /\ fileToBase64 (Loaded (lit "data:")) = Resolved None.
Proof.
  assert (H : ~ In comma (lit "data:")).
  { vm_compute. intros H. repeat (destruct H as [H | H]; [discriminate |]). exact H. }
  split; [exact H |].
  exact (@fileToBase64_without_comma_is_undefined (lit "data:") H).
Defined.

(** ** Image selection *)

Lemma image_select_begin_awaits (file : File.t) (s : State) :
  (exists rest, File.type file = lit "image/" ++ rest) ->
  handleImageSelect_begin file s = Await (setApiError [] s) file.
Proof.
  intros H. apply startsWith_spec in H.
  unfold handleImageSelect_begin. rewrite H. reflexivity.
Qed.

(** X8.  Selecting a file of an image type that the reader encodes attaches
    a payload with that encoding, the type and the name of the file, and
    empties [apiError]; conversation, documents and quiz stay as they were. *)
Theorem select_image_attaches_payload
    (file : File.t) (base64Data : jsstring) (s : State) :
  (exists rest, File.type file = lit "image/" ++ rest) ->
  let s' := handleImageSelect file (Resolved base64Data) s in
  image s' = Some {| ImagePayload.data := base64Data;
                     ImagePayload.mimeType := File.type file;
                     ImagePayload.name := File.name file |}
  /\ apiError s' = []
  /\ conversation s' = conversation s /\ pdf s' = pdf s /\ quiz s' = quiz s.
Proof.
  intros H. unfold handleImageSelect.
  rewrite image_select_begin_awaits by exact H. cbn. repeat split.
Qed.

Lemma select_image_example :
  (exists rest, File.type sampleImageFile = lit "image/" ++ rest)
  /\ image (handleImageSelect sampleImageFile (Resolved (lit "iVBORw0KGgo="))
              busySession)
     = Some sampleImage.
Proof.
  assert (H : exists rest, File.type sampleImageFile = lit "image/" ++ rest).
  { exists (lit "png"). reflexivity. }
  split; [exact H |].
  exact (proj1 (@select_image_attaches_payload sampleImageFile
                  (lit "iVBORw0KGgo=") busySession H)).
Defined.

(** X9.  When the reader fails on a file of an image type, the attached
    image is what it was and [apiError] holds the fixed text about the
    failed load, whatever the reader's error was. *)
Theorem select_image_read_failure_keeps_image
    (file : File.t) (e : Thrown) (s : State) :
  (exists rest, File.type file = lit "image/" ++ rest) ->
  let s' := handleImageSelect file (Rejected e) s in
  image s' = image s
  /\ apiError s' = lit "Failed to load the image. Please try again."
  /\ apiError s' <> [].
Proof.
  intros H. unfold handleImageSelect.
  rewrite image_select_begin_awaits by exact H. cbn. repeat split. discriminate.
Qed.

Lemma select_image_read_failure_example :
  (exists rest, File.type sampleImageFile = lit "image/" ++ rest)
  /\ image (handleImageSelect sampleImageFile
              (Rejected (Value {| JsError.message := None |})) busySession)
     = Some sampleImage.
Proof.
  assert (H : exists rest, File.type sampleImageFile = lit "image/" ++ rest).
  { exists (lit "png"). reflexivity. }
  split; [exact H |].
  exact (proj1 (@select_image_read_failure_keeps_image sampleImageFile
                  (Value {| JsError.message := None |}) busySession H)).
Defined.

(** X10.  Whatever the file and however the read ends, image selection
    either leaves the attached image as it was or attaches a payload that
    has the file's name and a type beginning with [image/]. *)
Theorem select_image_only_attaches_images
    (file : File.t) (r : Settled jsstring) (s : State) :
  image (handleImageSelect file r s) = image s
  \/ exists p, image (handleImageSelect file r s) = Some p
               /\ ImagePayload.name p = File.name file
               /\ exists rest, ImagePayload.mimeType p = lit "image/" ++ rest.
Proof.
  unfold handleImageSelect, handleImageSelect_begin.
  destruct (startsWith (File.type file) (lit "image/")) eqn:E; simpl.
  - destruct r as [base64Data | e]; simpl.
    + right. eexists. split; [reflexivity |]. split; [reflexivity |].
      exact (proj1 (startsWith_spec _ _) E).
    + left. reflexivity.
  - left. reflexivity.
Qed.

(** ** Generate Quiz *)

Lemma quiz_begin_awaits (s : State) :
  processedDocs s <> [] ->
  handleGenerateQuiz_begin s =
  Await (setQuiz None (setApiError [] (setIsGeneratingQuiz true s)))
        (join quizSeparator (map PdfDocument.text (processedDocs s))).
Proof.
  intros H. unfold handleGenerateQuiz_begin.
  destruct (processedDocs s) as [|d ds]; [congruence | reflexivity].
Qed.

Lemma join_length (sep : jsstring) (parts : list jsstring) :
  List.length (join sep parts) =
  list_sum (map (@List.length N) parts)
  + List.length sep * (List.length parts - 1).
Proof.
  induction parts as [|p rest IH].
  - simpl. lia.
  - destruct rest as [|p' rest'].
    + simpl. lia.
    + change (join sep (p :: p' :: rest')) with (p ++ sep ++ join sep (p' :: rest')).
      rewrite !length_app, IH. simpl. lia.
Qed.

Lemma join_contains (sep t : jsstring) (parts : list jsstring) :
  In t parts -> exists before after, join sep parts = before ++ t ++ after.
Proof.
  induction parts as [|p rest IH]; intros H.
  - destruct H.
  - destruct rest as [|p' rest'].
    + destruct H as [<- | []]. exists [], []. simpl. symmetry. apply app_nil_r.
    + change (join sep (p :: p' :: rest')) with (p ++ sep ++ join sep (p' :: rest')).
      destruct H as [<- | H].
      * exists [], (sep ++ join sep (p' :: rest')). reflexivity.
      * destruct (IH H) as (before & after & E). rewrite E.
        exists (p ++ sep ++ before), after. rewrite <- !app_assoc. reflexivity.
Qed.

(** X11.  With at least one document, a quiz generation that succeeds
    stores the questions received, lowers the quiz flag and leaves
    [apiError] empty; the button to view the quiz is then rendered, also
    when the list of questions is empty.  Conversation, documents and image
    stay as they were. *)
Theorem generate_quiz_success_stores_questions
    (questions : list QuizQuestion.t) (s : State) :
  processedDocs s <> [] ->
  let s' := handleGenerateQuiz (Resolved questions) s in
  quiz s' = Some questions
  /\ isGeneratingQuiz s' = false
  /\ apiError s' = []
  /\ quizButtonShown s' = true
  /\ conversation s' = conversation s /\ pdf s' = pdf s /\ image s' = image s.
Proof.
  intros H. unfold handleGenerateQuiz.
  rewrite quiz_begin_awaits by exact H. cbn. repeat split.
Qed.

Lemma generate_quiz_success_example :
  processedDocs oneDocSession <> []
  /\ quiz (handleGenerateQuiz (Resolved [sampleQuestion]) oneDocSession)
     = Some [sampleQuestion].
Proof.
  assert (H : processedDocs oneDocSession <> []) by discriminate.
  split; [exact H |].
  exact (proj1 (@generate_quiz_success_stores_questions [sampleQuestion]
                  oneDocSession H)).
Defined.

(** X12.  With at least one document, a quiz generation that fails, with
    whatever value, leaves no quiz, also when there was one before; the
    quiz flag is down and the button to view the quiz is not rendered.
    When the value it rejects with is not null or undefined, [apiError]
    holds the message of the failure, or the fallback text when the message
    is missing or empty; when it is null or undefined, reading [message]
    throws inside the [catch] and [apiError] stays empty. *)
Theorem generate_quiz_failure_drops_previous_quiz
    (e : Thrown) (s : State) :
  processedDocs s <> [] ->
  let s' := handleGenerateQuiz (Rejected e) s in
  quiz s' = None
  /\ isGeneratingQuiz s' = false
  /\ quizButtonShown s' = false
  /\ apiError s' = match e with
                   | Nullish => []
                   | Value err =>
                       match JsError.message err with
                       | Some (c :: m) => c :: m
                       | _ => quizFallback
                       end
                   end
  /\ (apiError s' <> [] <-> e <> Nullish).
Proof.
  intros H. unfold handleGenerateQuiz.
  rewrite quiz_begin_awaits by exact H.
  destruct e as [|err]; cbn.
  - repeat split; intros E; contradiction.
  - split; [reflexivity |]. split; [reflexivity |]. split; [reflexivity |].
    split; [destruct (JsError.message err) as [[|c m]|]; reflexivity |].
    split; [discriminate |].
    intros _. apply or_else_nonempty. discriminate.
Qed.

Lemma generate_quiz_failure_example :
  processedDocs (setQuiz (Some [sampleQuestion]) oneDocSession) <> []
  /\ quiz (handleGenerateQuiz (Rejected (Value {| JsError.message := Some [] |}))
             (setQuiz (Some [sampleQuestion]) oneDocSession))
     = None.
Proof.
  assert (H : processedDocs (setQuiz (Some [sampleQuestion]) oneDocSession) <> [])
    by discriminate.
  split; [exact H |].
  exact (proj1 (@generate_quiz_failure_drops_previous_quiz
                  (Value {| JsError.message := Some [] |})
                  (setQuiz (Some [sampleQuestion]) oneDocSession) H)).
Defined.

(** X13.  With at least one document, the text sent to the quiz service
    holds the text of every document as a contiguous part, and its length is
    the sum of the lengths of the texts plus seven code units of separator
    between each two documents. *)
Theorem generate_quiz_sends_every_text (s : State) :
  processedDocs s <> [] ->
  exists combinedText,
    called (handleGenerateQuiz_begin s) = Some combinedText
    /\ (forall d, In d (processedDocs s) ->
          exists before after,
            combinedText = before ++ PdfDocument.text d ++ after)
    /\ List.length combinedText =
         list_sum (map (fun d => List.length (PdfDocument.text d)) (processedDocs s))
         + 7 * (List.length (processedDocs s) - 1).
Proof.
  intros H. rewrite quiz_begin_awaits by exact H. eexists. split; [reflexivity |]. split.
  - intros d Hd. apply join_contains. apply in_map. exact Hd.
  - rewrite join_length, map_map, length_map. reflexivity.
Qed.

Lemma generate_quiz_sends_every_text_example :
  processedDocs oneDocSession <> []
  /\ exists combinedText,
       called (handleGenerateQuiz_begin oneDocSession) = Some combinedText
       /\ (forall d, In d (processedDocs oneDocSession) ->
             exists before after,
               combinedText = before ++ PdfDocument.text d ++ after)
       /\ List.length combinedText =
            list_sum (map (fun d => List.length (PdfDocument.text d))
                          (processedDocs oneDocSession))
            + 7 * (List.length (processedDocs oneDocSession) - 1).
Proof.
  assert (H : processedDocs oneDocSession <> []) by discriminate.
  split; [exact H |].
  exact (@generate_quiz_sends_every_text oneDocSession H).
Defined.

(** X14.  Clear Session while a quiz is awaited does not cancel the call:
    when the questions arrive they are stored in the cleared session, which
    then has a quiz, and the button to view it, but no document. *)
Theorem quiz_lands_after_clear (questions : list QuizQuestion.t) (s : State) :
  processedDocs s <> [] ->
  let waiting := stateOf (handleGenerateQuiz_begin s) in
  let s' := handleGenerateQuiz_resume (Resolved questions)
              (handleClearSession waiting) in
  quiz s' = Some questions
  /\ quizButtonShown s' = true
  /\ processedDocs s' = []
  /\ docsLoaded s' = false.
Proof.
  intros H. rewrite quiz_begin_awaits by exact H. cbn. repeat split.
Qed.

Lemma quiz_lands_after_clear_example :
  processedDocs oneDocSession <> []
  /\ quiz (handleGenerateQuiz_resume (Resolved [sampleQuestion])
             (handleClearSession (stateOf (handleGenerateQuiz_begin oneDocSession))))
     = Some [sampleQuestion].
Proof.
  assert (H : processedDocs oneDocSession <> []) by discriminate.
  split; [exact H |].
  exact (proj1 (@quiz_lands_after_clear [sampleQuestion] oneDocSession H)).
Defined.

(** ** Which operation writes which cell *)

Lemma answered_app_user (b : bool) (turns : list ConversationTurn.t) (q : jsstring) :
  answered b turns = true -> answered b (turns ++ [userTurn q]) = true.
Proof.
  revert b. induction turns as [|t rest IH]; intros b H; simpl in *.
  - reflexivity.
  - destruct (ConversationTurn.role t).
    + apply IH. exact H.
    + apply andb_true_iff in H as [-> H]. simpl. apply IH. exact H.
Qed.

Lemma answered_app_user_model (b : bool) (turns : list ConversationTurn.t)
    (q a : jsstring) :
  answered b turns = true ->
  answered b (turns ++ [userTurn q; modelTurn a]) = true.
Proof.
  revert b. induction turns as [|t rest IH]; intros b H; simpl in *.
  - reflexivity.
  - destruct (ConversationTurn.role t).
    + apply IH. exact H.
    + apply andb_true_iff in H as [-> H]. simpl. apply IH. exact H.
Qed.

Lemma ask_conversation (q : jsstring) (r : Settled jsstring) (s : State) :
  conversation (handleQuestionSubmit q r s) =
  match handleQuestionSubmit_begin q s, r with
  | Return _, _ => conversation s
  | Await _ _, Resolved a => conversation s ++ [userTurn q; modelTurn a]
  | Await _ _, Rejected _ => conversation s ++ [userTurn q]
  end.
Proof.
  unfold handleQuestionSubmit, handleQuestionSubmit_begin.
  destruct (negb (truthy (trim q)) && negb (truthy (image s))); [reflexivity |].
  destruct r as [? | [|?]]; cbn; [rewrite <- app_assoc | |]; reflexivity.
Qed.

Lemma ask_flags (q : jsstring) (r : Settled jsstring) (s : State) :
  isGenerating s = false ->
  isGenerating (handleQuestionSubmit q r s) = false
  /\ isGeneratingQuiz (handleQuestionSubmit q r s) = isGeneratingQuiz s.
Proof.
  intros H. unfold handleQuestionSubmit, handleQuestionSubmit_begin.
  destruct (negb (truthy (trim q)) && negb (truthy (image s))).
  - split; [exact H | reflexivity].
  - destruct r as [? | [|?]]; split; reflexivity.
Qed.

Lemma quiz_flags (r : Settled (list QuizQuestion.t)) (s : State) :
  isGeneratingQuiz s = false ->
  isGenerating (handleGenerateQuiz r s) = isGenerating s
  /\ isGeneratingQuiz (handleGenerateQuiz r s) = false.
Proof.
  intros H. unfold handleGenerateQuiz, handleGenerateQuiz_begin.
  destruct (List.length (processedDocs s) =? 0).
  - split; [reflexivity | exact H].
  - destruct r as [? | [|?]]; split; reflexivity.
Qed.

Section RunProperties.

Variable processPdfs : FileList -> PdfProcessor.t -> PdfProcessor.t.

(** X15.  The profile belongs to no session: Save Profile replaces it, and
    no other operation, Clear Session and file upload included, changes
    it. *)
Theorem profile_changes_only_by_save (op : Op) (s : State) :
  profile (run processPdfs op s) =
  match op with
  | ProfileSave newProfile => newProfile
  | _ => profile s
  end.
Proof.
  destruct op; simpl; try reflexivity.
  - unfold handleQuestionSubmit, handleQuestionSubmit_begin.
    destruct (negb (truthy (trim question)) && negb (truthy (image s)));
      [| destruct r as [? | [|?]]]; reflexivity.
  - unfold handleGenerateQuiz, handleGenerateQuiz_begin.
    destruct (List.length (processedDocs s) =? 0); [| destruct r as [? | [|?]]]; reflexivity.
  - unfold handleImageSelect, handleImageSelect_begin.
    destruct (negb (startsWith (File.type file) (lit "image/")));
      [| destruct r as [? | [|?]]]; reflexivity.
  - destruct files as [[|f fs]|]; reflexivity.
Qed.

(** X16.  The documents, the processing flag and [pdfError] are written by
    Clear Session and file upload only: every other operation leaves the
    cells of the document processor as they were. *)
Theorem documents_change_only_by_clear_or_upload (op : Op) (s : State) :
  pdf (run processPdfs op s) = pdf s \/ clears op = true.
Proof.
  destruct op; simpl; try (right; reflexivity); left; try reflexivity.
  - unfold handleQuestionSubmit, handleQuestionSubmit_begin.
    destruct (negb (truthy (trim question)) && negb (truthy (image s)));
      [| destruct r as [? | [|?]]]; reflexivity.
  - unfold handleGenerateQuiz, handleGenerateQuiz_begin.
    destruct (List.length (processedDocs s) =? 0); [| destruct r as [? | [|?]]]; reflexivity.
  - unfold handleImageSelect, handleImageSelect_begin.
    destruct (negb (startsWith (File.type file) (lit "image/")));
      [| destruct r as [? | [|?]]]; reflexivity.
Qed.

(** X17.  The attached image after an operation: the payload handed over by
    the annotator, whatever was attached; none after Clear Image, Clear
    Session and the upload of a non-empty batch; and the image of before
    after every other operation but image selection. *)
Theorem image_after_operation (op : Op) (s : State) :
  image (run processPdfs op s) =
  match op with
  | ImageSelect file r => image (handleImageSelect file r s)
  | AnnotateComplete newImagePayload => Some newImagePayload
  | ClearImage | ClearSession => None
  | FileChange (Some (_ :: _)) => None
  | _ => image s
  end.
Proof.
  destruct op; simpl; try reflexivity.
  - unfold handleQuestionSubmit, handleQuestionSubmit_begin.
    destruct (negb (truthy (trim question)) && negb (truthy (image s)));
      [| destruct r as [? | [|?]]]; reflexivity.
  - unfold handleGenerateQuiz, handleGenerateQuiz_begin.
    destruct (List.length (processedDocs s) =? 0); [| destruct r as [? | [|?]]]; reflexivity.
  - destruct files as [[|f fs]|]; reflexivity.
Qed.

(** X18.  A null or an empty batch of files is ignored: the session is not
    cleared and the document processor is not called, whatever it would
    have done. *)
Theorem upload_of_nothing_is_noop (s : State) :
  handleFileChange processPdfs None s = s
  /\ handleFileChange processPdfs (Some []) s = s
  /\ called (handleFileChange_begin None s) = None
  /\ called (handleFileChange_begin (Some []) s) = None.
Proof. repeat split. Qed.

Lemma run_keeps_idle (op : Op) (s : State) :
  isGenerating s = false -> isGeneratingQuiz s = false ->
  isGenerating (run processPdfs op s) = false
  /\ isGeneratingQuiz (run processPdfs op s) = false.
Proof.
  intros Hg Hq. destruct op; simpl; try (split; assumption).
  - destruct (ask_flags question r s Hg) as [-> ->]. split; [reflexivity | exact Hq].
  - destruct (quiz_flags r s Hq) as [-> ->]. split; [exact Hg | reflexivity].
  - unfold handleImageSelect, handleImageSelect_begin.
    destruct (negb (startsWith (File.type file) (lit "image/")));
      [| destruct r as [? | [|?]]]; split; assumption.
  - destruct files as [[|f fs]|]; split; assumption.
Qed.

(** X19.  When operations run one after the other, each to its end, the
    answer and quiz flags are down between them: from a state where both are
    down, every run of operations ends in such a state. *)
Theorem flags_down_between_operations (ops : list Op) (s : State) :
  isGenerating s = false -> isGeneratingQuiz s = false ->
  isGenerating (runAll processPdfs ops s) = false
  /\ isGeneratingQuiz (runAll processPdfs ops s) = false.
Proof.
  revert s. induction ops as [|op ops IH]; intros s Hg Hq; simpl.
  - split; assumption.
  - destruct (run_keeps_idle op s Hg Hq) as [Hg' Hq'].
    apply IH; assumption.
Qed.

Lemma run_keeps_answers_after_questions (op : Op) (s : State) :
  answersFollowQuestions (conversation s) = true ->
  answersFollowQuestions (conversation (run processPdfs op s)) = true.
Proof.
  unfold answersFollowQuestions. intros H.
  destruct op; simpl; try exact H; try reflexivity.
  - rewrite ask_conversation.
    destruct (handleQuestionSubmit_begin question s); [exact H |].
    destruct r as [? | ?].
    + apply answered_app_user_model. exact H.
    + apply answered_app_user. exact H.
  - rewrite generate_quiz_keeps_conversation. exact H.
  - rewrite image_select_keeps_conversation. exact H.
  - destruct (file_change_conversation processPdfs files s) as [-> | ->];
      [exact H | reflexivity].
Qed.

(** X20.  When operations run one after the other, each to its end, every
    model turn of the conversation comes directly after a user turn: from a
    conversation of that shape, every run of operations ends in one. *)
Theorem answers_follow_questions_along_run (ops : list Op) (s : State) :
  answersFollowQuestions (conversation s) = true ->
  answersFollowQuestions (conversation (runAll processPdfs ops s)) = true.
Proof.
  revert s. induction ops as [|op ops IH]; intros s H; simpl.
  - exact H.
  - apply IH. apply run_keeps_answers_after_questions. exact H.
Qed.

End RunProperties.

Lemma flags_down_example :
  isGenerating initialState = false /\ isGeneratingQuiz initialState = false
  /\ isGenerating (runAll appendingProcessor sampleRun initialState) = false
  /\ isGeneratingQuiz (runAll appendingProcessor sampleRun initialState) = false.
Proof.
  split; [reflexivity |]. split; [reflexivity |].
  exact (@flags_down_between_operations appendingProcessor sampleRun initialState
           eq_refl eq_refl).
Defined.

Lemma answers_follow_questions_example :
  answersFollowQuestions (conversation initialState) = true
  /\ answersFollowQuestions
       (conversation (runAll appendingProcessor sampleRun initialState)) = true.
Proof.
  split; [reflexivity |].
  exact (@answers_follow_questions_along_run appendingProcessor sampleRun
           initialState eq_refl).
Defined.

Lemma conversation_grows_example :
  forallb (fun op => negb (clears op)) sampleChat = true
  /\ extends busySession (runAll appendingProcessor sampleChat busySession).
Proof.
  split; [reflexivity |].
  exact (@conversation_grows_along_run appendingProcessor sampleChat busySession
           eq_refl).
Defined.

(** ** What the render shows *)

(** X23.  The error handed to the answer display: nothing while a quiz is
    generated; otherwise [apiError] when it is not empty, else [pdfError]
    when it is a non-empty string, else the empty string.  Here [apiError]
    comes first, whereas the derived [error] puts [pdfError] first. *)
Theorem answer_display_prefers_api_error (s : State) :
  answerDisplayError s =
  if isGeneratingQuiz s then None
  else Some match apiError s, pdfError s with
            | c :: m, _ => c :: m
            | [], Some (c :: m) => c :: m
            | [], _ => []
            end.
Proof.
  unfold answerDisplayError, or_string, error.
  destruct (isGeneratingQuiz s); simpl; [reflexivity |].
  destruct (apiError s) as [|c m]; simpl; [| reflexivity].
  destruct (pdfError s) as [[|c m]|]; reflexivity.
Qed.

(** X24.  After Clear Session the document list and its clear button, the
    button to view the quiz, the quiz view and the annotator are not
    rendered, and no error text is displayed; the question input is
    disabled exactly when it was before. *)
Theorem clear_session_hides_session_views (s : State) :
  docsLoaded (handleClearSession s) = false
  /\ quizButtonShown (handleClearSession s) = false
  /\ isQuizModalOpen (handleClearSession s) = false
  /\ annotatorShown (handleClearSession s) = false
  /\ answerDisplayError (handleClearSession s)
     = (if isGeneratingQuiz s then None else Some [])
  /\ questionInputDisabled (handleClearSession s) = questionInputDisabled s.
Proof.
  repeat split.
  - unfold annotatorShown. apply andb_false_r.
  - unfold answerDisplayError. cbn. destruct (isGeneratingQuiz s); reflexivity.
Qed.

(** ** Annotation, then a question *)

(** X25.  Once the annotator has handed over a payload, the annotator is
    closed and any question, a blank one too, passes the guard of Ask; the
    request carries the question as typed, one (name, text) pair per
    document in their order, and the annotated payload. *)
Theorem ask_after_annotation_sends_annotated_image
    (newImagePayload : ImagePayload.t) (q : jsstring) (s : State) :
  annotatorShown (handleAnnotateComplete newImagePayload s) = false
  /\ called (handleQuestionSubmit_begin q (handleAnnotateComplete newImagePayload s))
     = Some {| req_question := q;
               req_docsContext :=
                 map (fun d => (File.name (PdfDocument.file d), PdfDocument.text d))
                     (processedDocs s);
               req_image := Some newImagePayload |}.
Proof.
  split; [reflexivity |].
  assert (H : passesGuard q (handleAnnotateComplete newImagePayload s)).
  { right. discriminate. }
  rewrite (ask_begin_awaits H). reflexivity.
Qed.
